(** * EVCC collector: transformation, dispatch and cache-and-serve

    A shallow embedding of [collector/evcc_collector.py].

    Python values that reach the collector come out of [json.loads], so
    they are modelled by the type [json] below.  A Python [dict] keeps its
    insertion order, which is the order [json.dumps] prints, so an object
    is an association list read with first-match lookup.  Numbers are
    carried by their exact value as a rational: every finite [int] and
    [float] is one, and [abs], comparison and [round] are exact on it.
    Arithmetic ([+], [/], [*]) is exact in the model; the rounding error
    of binary64 arithmetic is outside it.  *)

From Stdlib Require Import QArith Qround Qabs Lqa.
From Stdlib Require Import Ascii String.
From stdpp Require Import base strings list gmap pretty.

Local Open Scope Z_scope.
Local Open Scope string_scope.

(** ** Values *)

#[local] Set Warnings "-register-all".

Inductive json : Type :=
  | JNull
  | JBool (b : bool)
  | JNum (q : Q)
  | JStr (s : string)
  | JArr (l : list json)
  | JObj (d : list (string * json)).

(** Exceptions, by the class the code can observe.  [RequestException]
    stands for [requests.exceptions.RequestException] and its subclasses
    (connection error, timeout, HTTP error, invalid URL). *)
Inductive exn : Type :=
  | TypeError
  | AttributeError
  | ZoneInfoNotFoundError
  | RequestException (msg : string).

Inductive result (A : Type) : Type :=
  | Ok (a : A)
  | Raise (e : exn).
Arguments Ok {A} a.
Arguments Raise {A} e.

#[global] Instance result_ret : MRet result := fun _ a => Ok a.

#[global] Instance result_bind : MBind result := fun _ _ k r =>
  match r with
  | Ok a => k a
  | Raise e => Raise e
  end.

(** ** Python primitives used by the collector *)

(** Truth value of an object, as [if x], [not x], [x or y] test it. *)
Definition truthy (v : json) : bool :=
  match v with
  | JNull => false
  | JBool b => b
  | JNum q => negb (Qeq_bool q 0)
  | JStr s => negb (String.eqb s "")
  | JArr l => match l with [] => false | _ => true end
  | JObj d => match d with [] => false | _ => true end
  end.

(** [a or b] *)
Definition py_or (a b : json) : json := if truthy a then a else b.

Fixpoint assoc (k : string) (d : list (string * json)) : option json :=
  match d with
  | [] => None
  | (k', v) :: d' => if String.eqb k k' then Some v else assoc k d'
  end.

(** [d.get(k, dflt)] on a dict. *)
Definition dict_get (d : list (string * json)) (k : string) (dflt : json) : json :=
  match assoc k d with
  | Some v => v
  | None => dflt
  end.

(** [v.get(k, dflt)] on any object: only a dict has the method. *)
Definition py_get (v : json) (k : string) (dflt : json) : result json :=
  match v with
  | JObj d => Ok (dict_get d k dflt)
  | _ => Raise AttributeError
  end.

(** The number an object stands for in arithmetic: [bool] is a subclass
    of [int]. *)
Definition as_num (v : json) : option Q :=
  match v with
  | JNum q => Some q
  | JBool b => Some (if b then 1%Q else 0%Q)
  | _ => None
  end.

Definition num (v : json) : result Q :=
  match as_num v with
  | Some q => Ok q
  | None => Raise TypeError
  end.

(** [x == s] for a string literal [s]. *)
Definition py_eq_str (v : json) (s : string) : bool :=
  match v with
  | JStr t => String.eqb t s
  | _ => false
  end.

(** [round(x)]: the nearest integer, a tie going to the even one. *)
Definition round_half_even (q : Q) : Z :=
  let f := Qfloor q in
  let r := (q - inject_Z f)%Q in
  match (r ?= 1 # 2)%Q with
  | Lt => f
  | Gt => f + 1
  | Eq => if Z.even f then f else f + 1
  end.


(** ** Status of a loadpoint *)

Definition derive_status (lp : list (string * json)) : string :=
  let connected := dict_get lp "connected" (JBool false) in
  let enabled := dict_get lp "enabled" (JBool false) in
  let charging := dict_get lp "charging" (JBool false) in
  let mode := dict_get lp "mode" (JStr "") in
  if truthy charging then "Charging"
  else if truthy connected && truthy enabled && negb (truthy charging)
          && (py_eq_str mode "pv" || py_eq_str mode "minpv")
  then "Waiting for solar"
  else if truthy connected && truthy enabled && negb (truthy charging)
  then "Finished"
  else if truthy connected && negb (truthy enabled)
  then "Connected"
  else "Disconnected".

(** [s.rstrip('/')] *)
Fixpoint rstrip_slash (s : string) : string :=
  match s with
  | EmptyString => EmptyString
  | String c s' =>
      let r := rstrip_slash s' in
      if String.eqb r "" && Ascii.eqb c "/"%char then "" else String c r
  end.

(** ** Formatter *)

(** [round(x)] as Python returns it: an [int]. *)
Definition py_round (v : json) : result json :=
  q ← num v; Ok (JNum (inject_Z (round_half_even q))).

(** [round(x, n)]: the nearest multiple of [10^-n], ties to even. *)
Definition round_ndigits (q : Q) (n : nat) : Q :=
  (inject_Z (round_half_even (q * inject_Z (10 ^ Z.of_nat n)))
   / inject_Z (10 ^ Z.of_nat n))%Q.

Definition py_round_nd (v : json) (n : nat) : result json :=
  q ← num v; Ok (JNum (round_ndigits q n)).

(** [f"{x:.1f}"]: one digit after the point, correctly rounded. *)
Definition fmt_1f (q : Q) : string :=
  let t := round_half_even (q * 10) in
  (if Qlt_le_dec q 0 then "-" else "")
  ++ pretty (Z.abs t / 10) ++ "." ++ pretty (Z.abs t mod 10).

(** [f"{n:02d}"] for a non-negative [n]. *)
Definition fmt_02d (n : Z) : string :=
  if (n <? 10)%Z then "0" ++ pretty n else pretty n.

Definition fmt_kW (w : Q) : string := fmt_1f (w / 1000) ++ " kW".
Definition fmt_W (w : Q) : string := pretty (round_half_even w) ++ " W".

Definition format_power (watts : json) (unit : string) : result string :=
  w ← (if truthy watts then q ← num watts; Ok (Qabs q) else Ok 0%Q);
  if String.eqb unit "kW" then Ok (fmt_kW w)
  else if String.eqb unit "W" then Ok (fmt_W w)
  else if Qle_bool 1000 w then Ok (fmt_kW w)
  else Ok (fmt_W w).

(** [x // y] and [x % y] for a positive integer [y]. *)
Definition floordiv (q : Q) (y : Z) : Z := Qfloor (q / inject_Z y).
Definition pymod (q : Q) (y : Z) : Q := (q - inject_Z (y * floordiv q y))%Q.

Definition format_duration (seconds : json) : result string :=
  if negb (truthy seconds) then Ok ""
  else
    s ← num seconds;
    if Qlt_le_dec s 60 then Ok ""
    else if Qlt_le_dec s 3600 then
      let minutes := floordiv s 60 in
      Ok (pretty minutes ++ "m")
    else if Qlt_le_dec s 86400 then
      let hours := floordiv s 3600 in
      let minutes := floordiv (pymod s 3600) 60 in
      Ok (pretty hours ++ ":" ++ fmt_02d minutes ++ "h")
    else
      let days := floordiv s 86400 in
      let hours := floordiv (pymod s 86400) 3600 in
      Ok (pretty days ++ "d " ++ pretty hours ++ "h").

(** ** Transformer *)

(** The collector instance: the options [__init__] stores. *)
Record collector : Type := {
  url : string;
  webhook : option string;
  timezone : string;
  max_loadpoints : Z;
  power_unit : string;
  verbose : bool;
  dry_run : bool;
}.

(** [EVCCCollector(...)]: the URL loses its trailing slashes, and an
    empty timezone falls back to the [TZ] of the environment. *)
Definition new_collector (url : string) (webhook : option string)
    (timezone env_TZ : string) (max_loadpoints : Z) (power_unit : string)
    (verbose dry_run : bool) : collector :=
  {| url := rstrip_slash url;
     webhook := webhook;
     timezone := if String.eqb timezone "" then env_TZ else timezone;
     max_loadpoints := max_loadpoints;
     power_unit := power_unit;
     verbose := verbose;
     dry_run := dry_run |}.

Definition MODE_LABELS : list (string * json) :=
  [("off", JStr "Off"); ("pv", JStr "Solar");
   ("minpv", JStr "Min+Solar"); ("now", JStr "Fast")].

(** [x > 0] *)
Definition py_gt0 (v : json) : result json :=
  q ← num v; Ok (JBool (if Qlt_le_dec 0 q then true else false)).

(** [abs(x)] *)
Definition py_abs (v : json) : result json :=
  q ← num v; Ok (JNum (Qabs q)).

(** The raw grid power: [grid.power] where [grid] is a dict holding it,
    else the flat [gridPower], else 0; a falsy reading counts as 0. *)
Definition grid_power_raw (state : list (string * json)) : json :=
  let grid_obj := dict_get state "grid" (JObj []) in
  match grid_obj with
  | JObj g =>
      py_or (dict_get g "power" (dict_get state "gridPower" (JNum 0))) (JNum 0)
  | _ => py_or (dict_get state "gridPower" (JNum 0)) (JNum 0)
  end.

Definition transform_energy (self : collector) (state : json) : result json :=
  match state with
  | JObj st =>
      let pv_power := py_or (dict_get st "pvPower" (JNum 0)) (JNum 0) in
      let grid := grid_power_raw st in
      let home_power := py_or (dict_get st "homePower" (JNum 0)) (JNum 0) in
      let green_share_raw := py_or (dict_get st "greenShareHome" (JNum 0)) (JNum 0) in
      pv_fmt ← format_power pv_power (power_unit self);
      grid_abs ← py_abs grid;
      grid_fmt ← format_power grid (power_unit self);
      grid_import ← py_gt0 grid;
      home_fmt ← format_power home_power (power_unit self);
      (* a str or list times 100 is a sequence, which round rejects
         with the same TypeError *)
      green ← num green_share_raw;
      Ok (JObj
        [("pv_power", pv_power);
         ("pv_power_formatted", JStr pv_fmt);
         ("grid_power", grid_abs);
         ("grid_power_formatted", JStr grid_fmt);
         ("grid_import", grid_import);
         ("home_power", home_power);
         ("home_power_formatted", JStr home_fmt);
         ("green_share_home", JNum (inject_Z (round_half_even (green * 100))));
         ("tariff_grid", dict_get st "tariffGrid" JNull);
         ("tariff_feedin", dict_get st "tariffFeedIn" JNull);
         ("tariff_price_home", dict_get st "tariffPriceHome" JNull)])
  | _ => Raise AttributeError
  end.

(** [sum(xs)] over already computed values, starting from [0]. *)
Fixpoint py_sum (xs : list json) (acc : Q) : result Q :=
  match xs with
  | [] => Ok acc
  | x :: xs' => q ← num x; py_sum xs' (acc + q)%Q
  end.

(** [sum(b.get(k, 0) or 0 for b in bs)]: each unit is read when the sum
    reaches it. *)
Fixpoint sum_field (k : string) (bs : list json) (acc : Q) : result Q :=
  match bs with
  | [] => Ok acc
  | b :: bs' =>
      v ← py_get b k (JNum 0);
      q ← num (py_or v (JNum 0));
      sum_field k bs' (acc + q)%Q
  end.

(** [[b.get(k, 0) or 0 for b in bs]] *)
Fixpoint list_field (k : string) (bs : list json) : result (list json) :=
  match bs with
  | [] => Ok []
  | b :: bs' =>
      v ← py_get b k (JNum 0);
      vs ← list_field k bs';
      Ok (py_or v (JNum 0) :: vs)
  end.

Definition not_configured (fmt : string) : json :=
  JObj [("configured", JBool false);
        ("soc", JNum 0);
        ("power", JNum 0);
        ("power_formatted", JStr fmt);
        ("charging", JBool false)].

Definition transform_battery (self : collector) (state : json) : result json :=
  bat ← py_get state "battery" (JArr []);
  let batteries := match bat with JArr l => l | _ => [] end in
  let configured := (0 <? Z.of_nat (length batteries))%Z in
  if negb configured then
    fmt ← format_power (JNum 0) (power_unit self);
    Ok (not_configured fmt)
  else
    total_power ← sum_field "power" batteries 0%Q;
    soc_values ← list_field "soc" batteries;
    avg_soc ← match soc_values with
              | [] => Ok 0%Q
              | _ => s ← py_sum soc_values 0%Q;
                     Ok (s / inject_Z (Z.of_nat (length soc_values)))%Q
              end;
    fmt ← format_power (JNum total_power) (power_unit self);
    Ok (JObj
      [("configured", JBool true);
       ("soc", JNum (inject_Z (round_half_even avg_soc)));
       ("power", JNum total_power);
       ("power_formatted", JStr fmt);
       ("charging", JBool (if Qlt_le_dec 0 total_power then true else false))]).

(** [MODE_LABELS.get(mode, mode)]: a list or dict is not hashable. *)
Definition mode_label (mode : json) : result json :=
  match mode with
  | JStr m => Ok (dict_get MODE_LABELS m mode)
  | JArr _ | JObj _ => Raise TypeError
  | _ => Ok mode
  end.

(** [round(x, n) if x is not None else None] *)
Definition round_opt (v : json) (n : nat) : result json :=
  match v with
  | JNull => Ok JNull
  | _ => py_round_nd v n
  end.

(** [round(x) if x is not None else None] *)
Definition round_int_opt (v : json) : result json :=
  match v with
  | JNull => Ok JNull
  | _ => py_round v
  end.

Definition transform_loadpoint (self : collector) (lp : json) : result json :=
  match lp with
  | JObj d =>
      let mode := dict_get d "mode" (JStr "off") in
      let charge_power := py_or (dict_get d "chargePower" (JNum 0)) (JNum 0) in
      let charged_energy := py_or (dict_get d "chargedEnergy" (JNum 0)) (JNum 0) in
      session_solar_pct ←
        match dict_get d "sessionSolarPercentage" JNull with
        | JNull => Ok (JNum 0)
        | v => py_round v
        end;
      session_price ← round_opt (dict_get d "sessionPrice" JNull) 2;
      label ← mode_label mode;
      power_fmt ← format_power charge_power (power_unit self);
      energy ← num charged_energy;
      duration_fmt ← format_duration (dict_get d "chargeDuration" JNull);
      remaining_fmt ← format_duration (dict_get d "chargeRemainingDuration" JNull);
      vehicle_soc ← py_round (py_or (dict_get d "vehicleSoc" (JNum 0)) (JNum 0));
      Ok (JObj
        [("title", dict_get d "title" (JStr ""));
         ("mode", mode);
         ("mode_label", label);
         ("charging", dict_get d "charging" (JBool false));
         ("connected", dict_get d "connected" (JBool false));
         ("enabled", dict_get d "enabled" (JBool false));
         ("status", JStr (derive_status d));
         ("charge_power", charge_power);
         ("charge_power_formatted", JStr power_fmt);
         ("charged_energy_kwh", JNum (round_ndigits (energy / 1000) 1));
         ("charge_duration_formatted", JStr duration_fmt);
         ("charge_remaining_formatted", JStr remaining_fmt);
         ("session_solar_pct", session_solar_pct);
         ("session_price", session_price);
         ("vehicle_title",
            py_or (dict_get d "vehicleTitle" JNull) (dict_get d "vehicleName" JNull));
         ("vehicle_soc", vehicle_soc);
         ("vehicle_range", dict_get d "vehicleRange" JNull);
         ("vehicle_connected", dict_get d "connected" (JBool false));
         ("limit_soc", dict_get d "effectiveLimitSoc" JNull);
         ("plan_active", dict_get d "planActive" (JBool false));
         ("plan_time", dict_get d "planTime" JNull);
         ("phases_active", dict_get d "phasesActive" JNull)])
  | _ => Raise AttributeError
  end.

(** One period of the statistics: the body of the loop. *)
Definition transform_period (stats : json) (period : string) : result json :=
  period_data ← py_get stats period (JObj []);
  charged ← py_get period_data "chargedKWh" JNull;
  solar ← py_get period_data "solarPercentage" JNull;
  price ← py_get period_data "avgPrice" JNull;
  charged_kwh ← round_opt charged 1;
  solar_pct ← round_int_opt solar;
  avg_price ← round_opt price 2;
  Ok (JObj [("charged_kwh", charged_kwh);
            ("solar_pct", solar_pct);
            ("avg_price", avg_price)]).

Definition transform_statistics (state : json) : result json :=
  stats ← py_get state "statistics" (JObj []);
  p30 ← transform_period stats "30d";
  ptotal ← transform_period stats "total";
  Ok (JObj [("30d", p30); ("total", ptotal)]).

(** ** Collector *)

(** What the process observes of the outside in one cycle.  An HTTP
    exchange answers with a status code and a body, or raises; the clock
    and the zone database answer with formatted strings. *)
Record response : Type := {
  status_code : Z;
  json_body : result json;   (* [response.json()] *)
}.

Record world : Type := {
  http_get : string -> result response;           (* [requests.get(url, timeout=30)] *)
  http_post : string -> json -> result response;  (* [requests.post(url, data=..., timeout=30)] *)
  utc_now : string;                  (* [datetime.now(timezone.utc)] as ISO-8601 *)
  local_now : string;                (* [datetime.now()] as [%Y-%m-%d %H:%M] *)
  zone_now : string -> result string;     (* [datetime.now(ZoneInfo(tz))], same format *)
  zone_abbrev : string -> result string;  (* [datetime.now(ZoneInfo(tz)).strftime('%Z')] *)
}.

(** What the process does to the outside, in order.  Documents are
    recorded as handed to [json.dumps]; [logger] calls are not part of
    the model. *)
Inductive event : Type :=
  | EvGet (u : string)
  | EvPost (u : string) (doc : json)
  | EvPrint (doc : json).

(** The process state: the module-level cache [_serve_data] and the
    input/output performed so far. *)
Record sys : Type := {
  serve_data : gmap string json;
  io : list event;
}.

Definition emit (e : event) (σ : sys) : sys :=
  {| serve_data := serve_data σ; io := io σ ++ [e] |}.

(** [response.raise_for_status()] *)
Definition raise_for_status (r : response) : result unit :=
  if (400 <=? status_code r)%Z && (status_code r <? 600)%Z
  then Raise (RequestException "HTTPError")
  else Ok ().

(** Every handler of [_api_request] logs and re-raises, so the exception
    reaches the caller unchanged. *)
Definition _api_request (self : collector) (w : world) (σ : sys) : result json * sys :=
  let api_url := url self ++ "/api/state" in
  let σ := emit (EvGet api_url) σ in
  (r ← http_get w api_url;
   _ ← raise_for_status r;
   data ← json_body r;
   py_get data "result" data, σ).

Definition _get_timezone_abbrev (self : collector) (w : world) : string :=
  if String.eqb (timezone self) "" then "UTC"
  else match zone_abbrev w (timezone self) with
       | Ok abbrev => if String.eqb abbrev "" then timezone self else abbrev
       | Raise _ => if String.eqb (timezone self) "" then "UTC" else timezone self
       end.

(** [l[:m]] *)
Definition slice_to {A} (l : list A) (m : Z) : list A :=
  let n := Z.of_nat (length l) in
  let stop := if (m <? 0)%Z then Z.max 0 (m + n) else Z.min m n in
  take (Z.to_nat stop) l.

(** The items of an object that [x[:m]], iteration and [len(x)] accept:
    a list, or a str read as its characters.  Anything else is refused
    (a dict with KeyError from Python 3.12 on, recorded as TypeError). *)
Definition sliceable (v : json) : result (list json) :=
  match v with
  | JArr l => Ok l
  | JStr s => Ok ((λ c, JStr (String c "")) <$> list_ascii_of_string s)
  | _ => Raise TypeError
  end.

(** [[f(x) for x in l]], stopping at the first exception. *)
Fixpoint map_result {A B} (f : A -> result B) (l : list A) : result (list B) :=
  match l with
  | [] => Ok []
  | x :: l' => y ← f x; ys ← map_result f l'; Ok (y :: ys)
  end.

(** The part of [collect] after the fetch. *)
Definition build_payload (self : collector) (w : world) (state : json) : result json :=
  local_formatted ←
    (if negb (String.eqb (timezone self) "")
     then zone_now w (timezone self)
     else Ok (local_now w));
  let tz_abbrev := _get_timezone_abbrev self w in
  lps ← py_get state "loadpoints" (JArr []);
  site_title ← py_get state "siteTitle" (JStr "EVCC");
  currency ← py_get state "currency" (JStr "EUR");
  energy ← transform_energy self state;
  battery ← transform_battery self state;
  loadpoints ← sliceable lps;
  summaries ← map_result (transform_loadpoint self)
                         (slice_to loadpoints (max_loadpoints self));
  statistics ← transform_statistics state;
  Ok (JObj
    [("merge_variables", JObj
       [("site_title", site_title);
        ("last_updated", JStr (utc_now w));
        ("last_updated_local", JStr local_formatted);
        ("timezone", JStr tz_abbrev);
        ("currency", currency);
        ("energy", energy);
        ("battery", battery);
        ("loadpoints", JArr summaries);
        ("loadpoint_count", JNum (inject_Z (Z.of_nat (length loadpoints))));
        ("statistics", statistics)])]).

Definition collect (self : collector) (w : world) (σ : sys) : result json * sys :=
  match _api_request self w σ with
  | (Ok state, σ') => (build_payload self w state, σ')
  | (Raise e, σ') => (Raise e, σ')
  end.

(** ** Dispatcher *)

Definition webhook_set (self : collector) : bool :=
  match webhook self with
  | Some u => negb (String.eqb u "")
  | None => false
  end.

Definition send (self : collector) (w : world) (payload : json) (σ : sys)
  : result bool * sys :=
  if dry_run self || negb (webhook_set self) then
    (Ok true, emit (EvPrint payload) σ)
  else
    let u := default "" (webhook self) in
    let σ := emit (EvPost u payload) σ in
    match (r ← http_post w u payload; raise_for_status r) with
    | Ok _ => (Ok true, σ)
    | Raise (RequestException _) => (Ok false, σ)
    | Raise e => (Raise e, σ)
    end.

(** ** Cache-and-Serve *)

Definition store_payload (payload : json) (σ : sys) : result unit * sys :=
  match py_get payload "merge_variables" payload with
  | Ok data =>
      (Ok (), {| serve_data := <["evcc" := data]> (serve_data σ); io := io σ |})
  | Raise e => (Raise e, σ)
  end.

Record reply : Type := {
  status : Z;
  headers : list (string * string);
  body : option json;   (* the document written with [json.dumps] *)
}.

Definition _json_response (st : Z) (doc : json) : reply :=
  {| status := st;
     headers := [("Content-Type", "application/json")];
     body := Some doc |}.

Definition do_GET (request_path : string) (σ : sys) : reply :=
  let path := rstrip_slash request_path in
  if String.eqb path "" || String.eqb path "/" then
    let endpoints :=
      (λ name, (name, JStr ("/data/" ++ name))) <$> elements (dom (serve_data σ)) in
    _json_response 200 (JObj [("endpoints", JObj [("evcc", JStr "/data/evcc")])])
  else if String.eqb path "/data/evcc" then
    match serve_data σ !! "evcc" with
    | None | Some JNull =>
        _json_response 404 (JObj [("error", JStr "No data collected yet")])
    | Some data => _json_response 200 data
    end
  else {| status := 404; headers := []; body := None |}.

(** ** One collection cycle *)

Definition run_collection (self : collector) (w : world) (σ : sys) : bool * sys :=
  match collect self w σ with
  | (Ok payload, σ1) =>
      match store_payload payload σ1 with
      | (Ok _, σ2) =>
          match send self w payload σ2 with
          | (Ok success, σ3) => (success, σ3)
          | (Raise _, σ3) => (false, σ3)
          end
      | (Raise _, σ2) => (false, σ2)
      end
  | (Raise _, σ1) => (false, σ1)
  end.

Definition initial : sys := {| serve_data := ∅; io := [] |}.

(** ** Vocabulary of the statements *)

(** A field of an output document. *)
Definition field (k : string) (doc : json) : option json :=
  match doc with
  | JObj d => assoc k d
  | _ => None
  end.

(** A flag of a loadpoint as the code tests it; a missing flag is false. *)
Definition flag (lp : list (string * json)) (k : string) : bool :=
  truthy (dict_get lp k (JBool false)).

Definition solar_mode (lp : list (string * json)) : Prop :=
  dict_get lp "mode" (JStr "") = JStr "pv" \/
  dict_get lp "mode" (JStr "") = JStr "minpv".

Definition statuses : list string :=
  ["Charging"; "Waiting for solar"; "Finished"; "Connected"; "Disconnected"].





(** The battery list of a state: empty when the key is missing or holds
    something other than a list. *)
Definition battery_list (st : list (string * json)) : list json :=
  match assoc "battery" st with
  | Some (JArr l) => l
  | _ => []
  end.








(** ** Fixtures *)

Definition stats_fixture : list (string * json) :=
  [("statistics", JObj
     [("30d", JObj [("chargedKWh", JNum (123456 # 1000));
                    ("solarPercentage", JNum (91 # 2));
                    ("avgPrice", JNull)])])].

Definition fixture_collector : collector :=
  new_collector "http://evcc:7070/" None "" "" 4 "auto" false false.

(** One loadpoint in mode "pv": connected, enabled, not charging. *)
Definition fixture_lp : list (string * json) :=
  [("mode", JStr "pv"); ("charging", JBool false);
   ("connected", JBool true); ("enabled", JBool true)].

Definition fixture_loadpoint : json := JObj fixture_lp.

(** A site exporting 500 W on a controller that reports both the nested
    and the flat grid power. *)
Definition energy_fixture : list (string * json) :=
  [("grid", JObj [("power", JNum (-500))]); ("gridPower", JNum 9)].

(** Two battery units, at 40 % and 60 %. *)
Definition battery_fixture : list (string * json) :=
  [("battery", JArr [JObj [("soc", JNum 40); ("power", JNum 1200)];
                     JObj [("soc", JNum 60); ("power", JNum (-200))]])].

Definition payload_a : json :=
  JObj [("merge_variables",
         JObj [("site_title", JStr "A"); ("currency", JStr "EUR")])].

Definition payload_b : json :=
  JObj [("merge_variables", JObj [("site_title", JStr "B")])].

Definition fixture_state : json := JObj [("loadpoints", JArr [fixture_loadpoint])].

(** A world whose controller answers with [state] and whose push
    destination answers every POST with [post]. *)
Definition fixture_world (state : json) (post : result response) : world :=
  {| http_get := λ _, Ok {| status_code := 200; json_body := Ok state |};
     http_post := λ _ _, post;
     utc_now := "2025-01-01T12:00:00Z";
     local_now := "2025-01-01 13:00";
     zone_now := λ _, Raise ZoneInfoNotFoundError;
     zone_abbrev := λ _, Raise ZoneInfoNotFoundError |}.

(** The payload of a cycle on the fixture. *)
Definition fixture_payload : json :=
  Eval vm_compute in
    match collect fixture_collector
            (fixture_world fixture_state (Raise (RequestException "down")))
            {| serve_data := ∅; io := [] |} with
    | (Ok payload, _) => payload
    | (Raise _, _) => JNull
    end.

(** A collector with a push destination. *)
Definition pushing_collector : collector :=
  new_collector "http://evcc:7070" (Some "https://trmnl.example/hook") "" ""
                4 "auto" false false.

(** ** Vocabulary of the effects *)

(** Whether [send] pushes: a destination is set and the run is not dry. *)
Definition pushes (self : collector) : bool :=
  negb (dry_run self || negb (webhook_set self)).

Definition destination (self : collector) : string := default "" (webhook self).

(** What the POST of [payload] comes to: delivered, or the exception of
    the exchange or of the status check. *)
Definition post_outcome (self : collector) (w : world) (payload : json) : result unit :=
  r ← http_post w (destination self) payload; raise_for_status r.

(** The cache after storing the payloads of [ps] in turn. *)
Definition store_all (ps : list json) (σ : sys) : sys :=
  fold_left (λ σ p, (store_payload p σ).2) ps σ.

(** The snapshot of a payload as [collect] builds it: the dict under
    [merge_variables]. *)
Definition snapshot_of (payload : json) : option json :=
  match field "merge_variables" payload with
  | Some (JObj mv) => Some (JObj mv)
  | _ => None
  end.

(** ** Vocabulary of the further properties *)




(** A loadpoint mid-session, every field in use. *)
Definition session_lp : list (string * json) :=
  [("title", JStr "Garage"); ("mode", JStr "minpv");
   ("charging", JBool true); ("connected", JBool true); ("enabled", JBool true);
   ("chargePower", JNum 3680); ("chargedEnergy", JNum 12345);
   ("chargeDuration", JNum 9876); ("chargeRemainingDuration", JNull);
   ("sessionSolarPercentage", JNum (145 # 2)); ("sessionPrice", JNum (1234 # 1000));
   ("vehicleName", JStr "car1"); ("vehicleSoc", JNum (123 # 2))].

(** Its summary. *)
Definition session_summary : json :=
  Eval vm_compute in
    match transform_loadpoint fixture_collector (JObj session_lp) with
    | Ok out => out
    | Raise _ => JNull
    end.

(** In document [out], field [fmtk] is the rendering by [format_power]
    of the value in field [numk]. *)
Definition renders (self : collector) (out : json) (numk fmtk : string) : Prop :=
  exists v s,
    field numk out = Some v /\
    field fmtk out = Some (JStr s) /\
    format_power v (power_unit self) = Ok s.

(** The first iterations of the interval loop of [main], one world per
    iteration: [while True: run_collection(collector); time.sleep(interval)]. *)
Fixpoint run_cycles (self : collector) (ws : list world) (σ : sys) : sys :=
  match ws with
  | [] => σ
  | w :: ws' => run_cycles self ws' (run_collection self w σ).2
  end.

(** The snapshot a cycle collects in world [w], if its collection succeeds. *)
Definition collected (self : collector) (w : world) : option json :=
  match (collect self w initial).1 with
  | Ok payload => snapshot_of payload
  | Raise _ => None
  end.

(** The snapshot of the last cycle that collected one. *)
Definition last_collected (self : collector) (ws : list world) : option json :=
  last (omap (collected self) ws).

(** The URL one cycle fetches. *)
Definition api_url (self : collector) : string := url self ++ "/api/state".

(** A collector told to keep [-1] loadpoints, and its payload on a
    state of three loadpoints. *)
Definition negative_collector : collector :=
  new_collector "http://evcc:7070" None "" "" (-1) "auto" false false.

Definition three_loadpoints : json :=
  JObj [("loadpoints", JArr [fixture_loadpoint; fixture_loadpoint; fixture_loadpoint])].

Definition negative_payload : json :=
  Eval vm_compute in
    match build_payload negative_collector
            (fixture_world three_loadpoints (Raise (RequestException "down")))
            three_loadpoints with
    | Ok payload => payload
    | Raise _ => JNull
    end.

(** * Properties *)

(** Closed decidable goals are settled by evaluation. *)
Ltac by_compute := apply (bool_decide_unpack _); vm_compute; exact I.

(** ** Python primitives *)

Lemma py_eq_str_true v s : py_eq_str v s = true <-> v = JStr s.
Proof.
  destruct v; simpl; try (split; [discriminate | intros [=]]).
  rewrite String.eqb_eq. split; [intros -> | intros [=]]; congruence.
Qed.

Lemma solar_mode_eqb lp :
  let mode := dict_get lp "mode" (JStr "") in
  py_eq_str mode "pv" || py_eq_str mode "minpv" = true <-> solar_mode lp.
Proof.
  simpl. unfold solar_mode.
  rewrite orb_true_iff, !py_eq_str_true. reflexivity.
Qed.

(** ** Status of a loadpoint *)

Example derive_status_charging_wins :
  derive_status [("charging", JBool true); ("connected", JBool false)] = "Charging".
Proof. reflexivity. Qed.

Example derive_status_now_finished :
  derive_status [("connected", JBool true); ("enabled", JBool true);
                 ("charging", JBool false); ("mode", JStr "now")] = "Finished".
Proof. reflexivity. Qed.

Example derive_status_empty : derive_status [] = "Disconnected".
Proof. reflexivity. Qed.


(** C1. [derive_status] is total and returns one of five distinct
    strings, decided in priority order: a charging loadpoint is
    "Charging" whatever its other fields; otherwise a connected and
    enabled one is "Waiting for solar" in mode "pv" or "minpv" and
    "Finished" in any other mode; otherwise a connected one (so not
    enabled) is "Connected"; everything else is "Disconnected". *)
Theorem derive_status_priority (lp : list (string * json)) :
  NoDup statuses /\
  derive_status lp ∈ statuses /\
  (flag lp "charging" = true -> derive_status lp = "Charging") /\
  (flag lp "charging" = false -> flag lp "connected" = true ->
   flag lp "enabled" = true -> solar_mode lp ->
   derive_status lp = "Waiting for solar") /\
  (flag lp "charging" = false -> flag lp "connected" = true ->
   flag lp "enabled" = true -> ~ solar_mode lp ->
   derive_status lp = "Finished") /\
  (flag lp "charging" = false -> flag lp "connected" = true ->
   flag lp "enabled" = false -> derive_status lp = "Connected") /\
  (flag lp "charging" = false -> flag lp "connected" = false ->
   derive_status lp = "Disconnected").
Proof.
  pose proof (solar_mode_eqb lp) as Hm. simpl in Hm.
  split; [by_compute |].
  unfold derive_status, flag.
  destruct (truthy (dict_get lp "charging" (JBool false))),
           (truthy (dict_get lp "connected" (JBool false))),
           (truthy (dict_get lp "enabled" (JBool false))),
           (py_eq_str (dict_get lp "mode" (JStr "")) "pv"
            || py_eq_str (dict_get lp "mode" (JStr "")) "minpv");
    simpl; (split; [by_compute |]);
    repeat split; intros; try discriminate; try reflexivity;
    match goal with
    | H : solar_mode lp |- _ => apply Hm in H; discriminate H
    | H : ~ solar_mode lp |- _ => destruct H; apply Hm; reflexivity
    end.
Qed.

Lemma derive_status_priority_witness :
  derive_status fixture_lp = "Waiting for solar".
Proof.
  apply (proj1 (proj2 (proj2 (proj2 (derive_status_priority fixture_lp)))));
    [reflexivity | reflexivity | reflexivity | left; reflexivity].
Defined.

(** ** Rounding *)


Lemma Qfloor_bounds q :
  (inject_Z (Qfloor q) <= q)%Q /\ (q < inject_Z (Qfloor q) + 1)%Q.
Proof.
  split; [apply Qfloor_le |].
  pose proof (Qlt_floor q) as H.
  rewrite inject_Z_plus in H. exact H.
Qed.

(** [lra] reads [inject_Z] itself, so the floor is abstracted first. *)
Ltac floor_lra q :=
  rewrite ?inject_Z_plus; change (inject_Z 1) with 1%Q;
  generalize dependent (inject_Z (Qfloor q)); intros; lra.

(** [round] returns a nearest integer. *)
Lemma round_half_even_nearest q :
  (Qabs (inject_Z (round_half_even q) - q) <= 1 # 2)%Q.
Proof.
  destruct (Qfloor_bounds q) as [Hlo Hhi].
  unfold round_half_even.
  destruct (q - inject_Z (Qfloor q) ?= 1 # 2)%Q eqn:E.
  - apply Qeq_alt in E.
    destruct (Z.even (Qfloor q)); apply Qabs_case; intros _; floor_lra q.
  - apply Qlt_alt in E. apply Qabs_case; intros _; floor_lra q.
  - apply Qgt_alt in E. apply Qabs_case; intros _; floor_lra q.
Qed.


Lemma round_half_even_inject z : round_half_even (inject_Z z) = z.
Proof.
  unfold round_half_even. rewrite Qfloor_Z.
  assert ((inject_Z z - inject_Z z ?= 1 # 2)%Q = Lt) as ->; [| reflexivity].
  apply (proj1 (Qlt_alt _ _)). generalize (inject_Z z). intros; lra.
Qed.


(** ** Formatter *)

Example format_power_examples :
  format_power (JNum 2345) "auto" = Ok "2.3 kW" /\
  format_power (JNum (-400)) "auto" = Ok "400 W" /\
  format_power (JNum 1000) "auto" = Ok "1.0 kW" /\
  format_power (JNum (1999 # 2)) "auto" = Ok "1000 W" /\
  format_power (JNum 0) "kW" = Ok "0.0 kW" /\
  format_power (JNum 250) "kW" = Ok "0.2 kW" /\
  format_power (JBool true) "W" = Ok "1 W" /\
  format_power (JStr "x") "W" = Raise TypeError.
Proof. repeat split; vm_compute; reflexivity. Qed.

Example format_duration_examples :
  format_duration JNull = Ok "" /\
  format_duration (JNum 59) = Ok "" /\
  format_duration (JNum 90) = Ok "1m" /\
  format_duration (JNum 3661) = Ok "1:01h" /\
  format_duration (JNum 90000) = Ok "1d 1h".
Proof. repeat split; vm_compute; reflexivity. Qed.


Lemma truthy_num q : truthy (JNum q) = false <-> (q == 0)%Q.
Proof.
  simpl. rewrite negb_false_iff. apply Qeq_bool_iff.
Qed.











(** ** Energy *)



Example transform_energy_export :
  exists out,
    transform_energy
      fixture_collector
      (JObj energy_fixture)
    = Ok out /\
    field "grid_power" out = Some (JNum 500) /\
    field "grid_import" out = Some (JBool false) /\
    field "grid_power_formatted" out = Some (JStr "500 W").
Proof. eexists. repeat split; vm_compute; reflexivity. Qed.

Example transform_energy_import_legacy :
  exists out,
    transform_energy
      fixture_collector
      (JObj [("gridPower", JNum 500); ("greenShareHome", JNum (3 # 8))])
    = Ok out /\
    field "grid_power" out = Some (JNum 500) /\
    field "grid_import" out = Some (JBool true) /\
    field "green_share_home" out = Some (JNum 38).
Proof. eexists. repeat split; vm_compute; reflexivity. Qed.



(** ** Battery *)



Lemma battery_list_get st :
  match dict_get st "battery" (JArr []) with JArr l => l | _ => [] end
  = battery_list st.
Proof.
  unfold battery_list, dict_get.
  destruct (assoc "battery" st) as [[] |]; reflexivity.
Qed.

(** The shape of [transform_battery] once the list is taken. *)
Lemma transform_battery_unfold self st :
  transform_battery self (JObj st) =
  let batteries := battery_list st in
  if negb (0 <? Z.of_nat (length batteries))%Z then
    fmt ← format_power (JNum 0) (power_unit self);
    Ok (not_configured fmt)
  else
    total_power ← sum_field "power" batteries 0%Q;
    soc_values ← list_field "soc" batteries;
    avg_soc ← match soc_values with
              | [] => Ok 0%Q
              | _ => s ← py_sum soc_values 0%Q;
                     Ok (s / inject_Z (Z.of_nat (length soc_values)))%Q
              end;
    fmt ← format_power (JNum total_power) (power_unit self);
    Ok (JObj
      [("configured", JBool true);
       ("soc", JNum (inject_Z (round_half_even avg_soc)));
       ("power", JNum total_power);
       ("power_formatted", JStr fmt);
       ("charging", JBool (if Qlt_le_dec 0 total_power then true else false))]).
Proof.
  unfold transform_battery. cbn [py_get mbind result_bind].
  rewrite battery_list_get. reflexivity.
Qed.

Example transform_battery_two_units :
  exists out,
    transform_battery
      fixture_collector
      (JObj battery_fixture)
    = Ok out /\
    field "configured" out = Some (JBool true) /\
    field "soc" out = Some (JNum 50) /\
    field "power" out = Some (JNum 1000) /\
    field "power_formatted" out = Some (JStr "1.0 kW") /\
    field "charging" out = Some (JBool true).
Proof. eexists. repeat split; vm_compute; reflexivity. Qed.

Example transform_battery_none :
  transform_battery
    fixture_collector
    (JObj [("battery", JArr [])])
  = Ok (JObj [("configured", JBool false); ("soc", JNum 0); ("power", JNum 0);
              ("power_formatted", JStr "0 W"); ("charging", JBool false)]).
Proof. vm_compute. reflexivity. Qed.



(** ** Statistics *)

(** [round(x, n)] lands on a multiple of [10^-n] nearest to [x]. *)
Lemma round_ndigits_nearest q n :
  (Qabs (round_ndigits q n - q) <= (1 # 2) / inject_Z (10 ^ Z.of_nat n))%Q /\
  exists k : Z, (round_ndigits q n * inject_Z (10 ^ Z.of_nat n) == inject_Z k)%Q.
Proof.
  unfold round_ndigits.
  assert (0 < 10 ^ Z.of_nat n) as Hp by (apply Z.pow_pos_nonneg; lia).
  assert (0 < inject_Z (10 ^ Z.of_nat n))%Q as Hs.
  { rewrite Zlt_Qlt in Hp. exact Hp. }
  pose proof (round_half_even_nearest (q * inject_Z (10 ^ Z.of_nat n))) as Hn.
  revert Hn Hs.
  generalize (round_half_even (q * inject_Z (10 ^ Z.of_nat n))). intros k.
  generalize (inject_Z (10 ^ Z.of_nat n)). intros s Hn Hs.
  split.
  - assert (inject_Z k / s - q == (inject_Z k - q * s) / s)%Q as -> by (field; lra).
    unfold Qdiv. rewrite Qabs_Qmult.
    rewrite (Qabs_pos (/ s)) by (apply Qlt_le_weak, Qinv_lt_0_compat, Hs).
    apply Qmult_le_compat_r; [exact Hn |].
    apply Qlt_le_weak, Qinv_lt_0_compat, Hs.
  - exists k. field. lra.
Qed.




Example transform_statistics_fixture :
  transform_statistics (JObj stats_fixture)
  = Ok (JObj [("30d", JObj [("charged_kwh", JNum (1235 # 10));
                            ("solar_pct", JNum 46);
                            ("avg_price", JNull)]);
              ("total", JObj [("charged_kwh", JNull);
                              ("solar_pct", JNull);
                              ("avg_price", JNull)])]).
Proof. vm_compute. reflexivity. Qed.

Example transform_statistics_no_data :
  transform_statistics (JObj [])
  = Ok (JObj [("30d", JObj [("charged_kwh", JNull); ("solar_pct", JNull);
                            ("avg_price", JNull)]);
              ("total", JObj [("charged_kwh", JNull); ("solar_pct", JNull);
                              ("avg_price", JNull)])]).
Proof. vm_compute. reflexivity. Qed.



(** ** Collector *)

(** Inversion of a successful sequence of binds. *)
Ltac bind_inv H :=
  repeat match type of H with
  | mbind _ ?r = Ok _ =>
      let E := fresh "E" in
      destruct r eqn:E; cbn [mbind result_bind] in H; [| discriminate H]
  end.

Lemma map_result_Forall2 {A B} (f : A -> result B) l ys :
  map_result f l = Ok ys -> Forall2 (λ x y, f x = Ok y) l ys.
Proof.
  revert ys. induction l as [| x l IH]; intros ys H; cbn [map_result] in H.
  - injection H as <-. constructor.
  - bind_inv H. injection H as <-. constructor; auto.
Qed.

Lemma slice_to_take {A} (l : list A) (m : Z) :
  0 <= m -> slice_to l m = take (Nat.min (length l) (Z.to_nat m)) l.
Proof.
  intros Hm. unfold slice_to.
  destruct (m <? 0)%Z eqn:E; [lia |].
  f_equal. lia.
Qed.

(** For a negative bound, Python counts from the end. *)
Lemma slice_to_negative {A} (l : list A) (m : Z) :
  m < 0 -> slice_to l m = take (length l - Z.to_nat (- m))%nat l.
Proof.
  intros Hm. unfold slice_to.
  destruct (m <? 0)%Z eqn:E; [| lia].
  f_equal. lia.
Qed.

(** What a payload is made of. *)
Lemma build_payload_shape self w state payload :
  build_payload self w state = Ok payload ->
  exists lps loadpoints summaries site local currency energy battery statistics,
    py_get state "loadpoints" (JArr []) = Ok lps /\
    sliceable lps = Ok loadpoints /\
    map_result (transform_loadpoint self)
      (slice_to loadpoints (max_loadpoints self)) = Ok summaries /\
    payload = JObj
      [("merge_variables", JObj
         [("site_title", site);
          ("last_updated", JStr (utc_now w));
          ("last_updated_local", JStr local);
          ("timezone", JStr (_get_timezone_abbrev self w));
          ("currency", currency);
          ("energy", energy);
          ("battery", battery);
          ("loadpoints", JArr summaries);
          ("loadpoint_count", JNum (inject_Z (Z.of_nat (length loadpoints))));
          ("statistics", statistics)])].
Proof.
  unfold build_payload. intros H.
  bind_inv H. injection H as <-.
  do 9 eexists. repeat split; eassumption.
Qed.

Lemma collect_inv self w σ payload σ' :
  collect self w σ = (Ok payload, σ') ->
  exists state,
    _api_request self w σ = (Ok state, σ') /\
    build_payload self w state = Ok payload.
Proof.
  unfold collect. intros H.
  destruct (_api_request self w σ) as [[state | e] σ1]; [| discriminate].
  injection H as H <-. eauto.
Qed.


Example collect_fixture :
  exists snapshot s,
    collect fixture_collector (fixture_world fixture_state (Raise (RequestException "down")))
            initial
    = (Ok (JObj [("merge_variables", snapshot)]),
       {| serve_data := ∅; io := [EvGet "http://evcc:7070/api/state"] |}) /\
    field "loadpoints" snapshot = Some (JArr [s]) /\
    field "status" s = Some (JStr "Waiting for solar") /\
    field "mode_label" s = Some (JStr "Solar") /\
    field "loadpoint_count" snapshot = Some (JNum 1) /\
    field "site_title" snapshot = Some (JStr "EVCC") /\
    field "timezone" snapshot = Some (JStr "UTC").
Proof. do 2 eexists. repeat split; vm_compute; reflexivity. Qed.



(** ** Dispatcher *)

Lemma send_print self w payload σ :
  pushes self = false ->
  send self w payload σ = (Ok true, emit (EvPrint payload) σ).
Proof.
  unfold pushes, send. intros H. apply negb_false_iff in H. rewrite H. reflexivity.
Qed.

Lemma send_post self w payload σ :
  pushes self = true ->
  send self w payload σ =
    (match post_outcome self w payload with
     | Ok _ => Ok true
     | Raise (RequestException _) => Ok false
     | Raise e => Raise e
     end, emit (EvPost (destination self) payload) σ).
Proof.
  unfold pushes, send, post_outcome, destination. intros H.
  apply negb_true_iff in H. rewrite H.
  destruct (_ ← http_post w _ payload; _) as [| []]; reflexivity.
Qed.

Lemma send_serve_data self w payload σ :
  serve_data (send self w payload σ).2 = serve_data σ.
Proof.
  destruct (pushes self) eqn:E.
  - rewrite send_post by exact E. reflexivity.
  - rewrite send_print by exact E. reflexivity.
Qed.

Lemma raise_for_status_ok r :
  ~ (400 <= status_code r < 600) -> raise_for_status r = Ok ().
Proof.
  unfold raise_for_status. intros H.
  destruct (400 <=? status_code r)%Z eqn:E1, (status_code r <? 600)%Z eqn:E2;
    try reflexivity. exfalso. apply H. lia.
Qed.


Example send_dry_run :
  send (new_collector "http://evcc:7070" (Some "https://trmnl.example/hook") "" ""
                       4 "auto" false true)
       (fixture_world fixture_state (Ok {| status_code := 200; json_body := Ok JNull |}))
       fixture_payload initial
  = (Ok true, {| serve_data := ∅; io := [EvPrint fixture_payload] |}).
Proof. reflexivity. Qed.

Example send_rejected :
  send pushing_collector
       (fixture_world fixture_state (Ok {| status_code := 500; json_body := Ok JNull |}))
       fixture_payload initial
  = (Ok false,
     {| serve_data := ∅; io := [EvPost "https://trmnl.example/hook" fixture_payload] |}).
Proof. reflexivity. Qed.



(** ** Cache-and-Serve *)

Lemma collect_snapshot self w σ payload σ' :
  collect self w σ = (Ok payload, σ') -> is_Some (snapshot_of payload).
Proof.
  intros H. destruct (collect_inv _ _ _ _ _ H) as (state & _ & Hbuild).
  destruct (build_payload_shape _ _ _ _ Hbuild)
    as (? & ? & ? & ? & ? & ? & ? & ? & ? & _ & _ & _ & ->).
  eexists. reflexivity.
Qed.

Lemma store_payload_snapshot payload snapshot σ :
  snapshot_of payload = Some snapshot ->
  store_payload payload σ =
    (Ok (), {| serve_data := <["evcc" := snapshot]> (serve_data σ); io := io σ |}).
Proof.
  unfold snapshot_of, field, store_payload, py_get, dict_get. intros H.
  destruct payload as [| | | | | d]; try discriminate.
  destruct (assoc "merge_variables" d) as [[| | | | | mv] |]; try discriminate.
  injection H as <-. reflexivity.
Qed.




Example serve_two_stores :
  do_GET "/data/evcc" initial
    = _json_response 404 (JObj [("error", JStr "No data collected yet")]) /\
  do_GET "/data/evcc/"
      (store_all [payload_a; payload_b] initial)
    = _json_response 200 (JObj [("site_title", JStr "B")]) /\
  do_GET "/data/other" initial = {| status := 404; headers := []; body := None |}.
Proof. repeat split; vm_compute; reflexivity. Qed.




(** ** One collection cycle *)

Example run_collection_fetch_fails :
  run_collection pushing_collector
    {| http_get := λ _, Raise (RequestException "Connection refused");
       http_post := λ _ _, Ok {| status_code := 200; json_body := Ok JNull |};
       utc_now := ""; local_now := "";
       zone_now := λ _, Ok ""; zone_abbrev := λ _, Ok "" |}
    initial
  = (false, {| serve_data := ∅; io := [EvGet "http://evcc:7070/api/state"] |}).
Proof. reflexivity. Qed.

Example run_collection_delivered :
  run_collection pushing_collector
    (fixture_world fixture_state (Ok {| status_code := 200; json_body := Ok JNull |}))
    initial
  = (true,
     {| serve_data := {[ "evcc" := default JNull (snapshot_of fixture_payload) ]};
        io := [EvGet "http://evcc:7070/api/state";
               EvPost "https://trmnl.example/hook" fixture_payload] |}).
Proof. vm_compute. reflexivity. Qed.



(** * Further properties *)

(** ** Strings *)

Lemma append_nonempty_r s t : t <> "" -> s ++ t <> "".
Proof.
  intros Ht. destruct s as [| c s]; simpl; [exact Ht | discriminate].
Qed.

Lemma length_append s t :
  String.length (s ++ t) = (String.length s + String.length t)%nat.
Proof. induction s as [| c s IH]; simpl; [reflexivity | rewrite IH; reflexivity]. Qed.

Lemma rstrip_slash_snoc s : rstrip_slash (s ++ "/") = rstrip_slash s.
Proof.
  induction s as [| c s IH]; [reflexivity |].
  simpl. rewrite IH. reflexivity.
Qed.

Lemma rstrip_slash_idem s : rstrip_slash (rstrip_slash s) = rstrip_slash s.
Proof.
  induction s as [| c s IH]; [reflexivity |].
  simpl.
  destruct (String.eqb (rstrip_slash s) "" && Ascii.eqb c "/"%char) eqn:E;
    [reflexivity |].
  simpl. rewrite IH, E. reflexivity.
Qed.

(** ** Floor division *)




(** ** Formatter: durations *)






Lemma falsy_num v s : truthy v = false -> as_num v = Some s -> (s == 0)%Q.
Proof.
  destruct v; try discriminate.
  - simpl. intros -> [= <-]. reflexivity.
  - intros Ht [= <-]. apply truthy_num, Ht.
Qed.

(** X2.  [format_duration] shows nothing below a minute: a value
    without truth (missing, zero, empty) prints as the empty string, a
    number prints as the empty string exactly when it is below 60, which
    covers negative durations, and any other value with truth is
    refused with TypeError. *)
Theorem format_duration_blank (v : json) :
  (truthy v = false -> format_duration v = Ok "") /\
  (forall s, as_num v = Some s ->
     (format_duration v = Ok "" <-> (s < 60)%Q)) /\
  (truthy v = true -> as_num v = None -> format_duration v = Raise TypeError).
Proof.
  split; [| split].
  - intros H. unfold format_duration. rewrite H. reflexivity.
  - intros s Hs. split.
    + intros H. destruct (Qlt_le_dec s 60) as [Hlt | Hge]; [exact Hlt |].
      exfalso. revert H. unfold format_duration, num.
      destruct (truthy v) eqn:Ht; cbn [negb].
      * rewrite Hs. cbn [mbind result_bind].
        destruct (Qlt_le_dec s 60); [lra |].
        destruct (Qlt_le_dec s 3600);
          [| destruct (Qlt_le_dec s 86400)]; intros [= H];
          (apply append_nonempty_r in H; [exact H | discriminate]).
      * intros _. pose proof (falsy_num v s Ht Hs). lra.
    + intros Hlt. unfold format_duration, num.
      destruct (truthy v); cbn [negb]; [| reflexivity].
      rewrite Hs. cbn [mbind result_bind].
      destruct (Qlt_le_dec s 60); [reflexivity | lra].
  - intros Ht Hn. unfold format_duration, num. rewrite Ht, Hn. reflexivity.
Qed.

Lemma format_duration_blank_witness :
  format_duration (JNum (-5)) = Ok "" <-> (-5 < 60)%Q.
Proof.
  apply (proj1 (proj2 (format_duration_blank (JNum (-5))))). reflexivity.
Defined.

(** ** Formatter: power *)




(** X4.  Only "kW" and "W" are read as units: under any other unit
    string [format_power] prints as under "auto". *)
Theorem format_power_other_unit (v : json) (u : string) :
  u <> "kW" -> u <> "W" -> format_power v u = format_power v "auto".
Proof.
  intros HkW HW. unfold format_power.
  apply String.eqb_neq in HkW, HW. rewrite HkW, HW. reflexivity.
Qed.

Lemma format_power_other_unit_witness :
  format_power (JNum 1500) "MW" = format_power (JNum 1500) "auto".
Proof. apply format_power_other_unit; discriminate. Defined.


Example format_power_auto_edge :
  format_power (JNum (1999 # 2)) "auto" = Ok "1000 W" /\
  format_power (JNum 1000) "auto" = Ok "1.0 kW".
Proof. split; vm_compute; reflexivity. Qed.

(** ** Loadpoints *)










(** The summary of a loadpoint, field by field. *)
Lemma transform_loadpoint_shape self d out :
  transform_loadpoint self (JObj d) = Ok out ->
  exists label power_fmt energy duration_fmt remaining_fmt solar price soc,
    mode_label (dict_get d "mode" (JStr "off")) = Ok label /\
    format_power (py_or (dict_get d "chargePower" (JNum 0)) (JNum 0))
      (power_unit self) = Ok power_fmt /\
    out = JObj
      [("title", dict_get d "title" (JStr ""));
       ("mode", dict_get d "mode" (JStr "off"));
       ("mode_label", label);
       ("charging", dict_get d "charging" (JBool false));
       ("connected", dict_get d "connected" (JBool false));
       ("enabled", dict_get d "enabled" (JBool false));
       ("status", JStr (derive_status d));
       ("charge_power", py_or (dict_get d "chargePower" (JNum 0)) (JNum 0));
       ("charge_power_formatted", JStr power_fmt);
       ("charged_energy_kwh", JNum (round_ndigits (energy / 1000) 1));
       ("charge_duration_formatted", JStr duration_fmt);
       ("charge_remaining_formatted", JStr remaining_fmt);
       ("session_solar_pct", solar);
       ("session_price", price);
       ("vehicle_title",
          py_or (dict_get d "vehicleTitle" JNull) (dict_get d "vehicleName" JNull));
       ("vehicle_soc", soc);
       ("vehicle_range", dict_get d "vehicleRange" JNull);
       ("vehicle_connected", dict_get d "connected" (JBool false));
       ("limit_soc", dict_get d "effectiveLimitSoc" JNull);
       ("plan_active", dict_get d "planActive" (JBool false));
       ("plan_time", dict_get d "planTime" JNull);
       ("phases_active", dict_get d "phasesActive" JNull)].
Proof.
  unfold transform_loadpoint. intros H. bind_inv H. injection H as <-.
  do 8 eexists. split; [reflexivity |]. split; reflexivity.
Qed.

Lemma derive_status_mode_default lp :
  forall mode',
    (py_eq_str mode' "pv" || py_eq_str mode' "minpv"
     = py_eq_str (dict_get lp "mode" (JStr "")) "pv"
       || py_eq_str (dict_get lp "mode" (JStr "")) "minpv") ->
    (let connected := dict_get lp "connected" (JBool false) in
     let enabled := dict_get lp "enabled" (JBool false) in
     let charging := dict_get lp "charging" (JBool false) in
     if truthy charging then "Charging"
     else if truthy connected && truthy enabled && negb (truthy charging)
             && (py_eq_str mode' "pv" || py_eq_str mode' "minpv")
     then "Waiting for solar"
     else if truthy connected && truthy enabled && negb (truthy charging)
     then "Finished"
     else if truthy connected && negb (truthy enabled)
     then "Connected"
     else "Disconnected") = derive_status lp.
Proof. intros mode' E. unfold derive_status. cbv zeta. rewrite E. reflexivity. Qed.

(** X7.  A loadpoint summary is consistent with itself: the status it
    carries is the one [derive_status] gives on the summary's own
    [charging], [connected], [enabled] and [mode] fields, and its
    [vehicle_connected] field always equals its [connected] field. *)
Theorem transform_loadpoint_consistent (self : collector)
    (d : list (string * json)) (out : json) :
  transform_loadpoint self (JObj d) = Ok out ->
  exists o, out = JObj o /\
    field "status" out = Some (JStr (derive_status o)) /\
    field "vehicle_connected" out = field "connected" out /\
    field "connected" out = Some (dict_get d "connected" (JBool false)).
Proof.
  intros H.
  destruct (transform_loadpoint_shape _ _ _ H)
    as (label & pf & en & df & rf & sol & pr & soc & _ & _ & ->).
  eexists. split; [reflexivity |].
  split; [| split; reflexivity].
  cbn [field assoc String.eqb Ascii.eqb Bool.eqb]. do 2 f_equal.
  symmetry. unfold derive_status at 1.
  change (dict_get _ "connected" (JBool false))
    with (dict_get d "connected" (JBool false)).
  change (dict_get _ "enabled" (JBool false))
    with (dict_get d "enabled" (JBool false)).
  change (dict_get _ "charging" (JBool false))
    with (dict_get d "charging" (JBool false)).
  change (dict_get _ "mode" (JStr "")) with (dict_get d "mode" (JStr "off")).
  apply derive_status_mode_default.
  unfold dict_get. destruct (assoc "mode" d); reflexivity.
Qed.

Lemma transform_loadpoint_consistent_witness :
  exists o, session_summary = JObj o /\
    field "status" session_summary = Some (JStr (derive_status o)) /\
    field "vehicle_connected" session_summary = field "connected" session_summary /\
    field "connected" session_summary
      = Some (dict_get session_lp "connected" (JBool false)).
Proof.
  apply (transform_loadpoint_consistent fixture_collector session_lp).
  vm_compute. reflexivity.
Defined.

Example session_summary_fields :
  field "status" session_summary = Some (JStr "Charging") /\
  field "mode_label" session_summary = Some (JStr "Min+Solar") /\
  field "charge_power_formatted" session_summary = Some (JStr "3.7 kW") /\
  field "charged_energy_kwh" session_summary = Some (JNum (123 # 10)) /\
  field "charge_duration_formatted" session_summary = Some (JStr "2:44h") /\
  field "charge_remaining_formatted" session_summary = Some (JStr "") /\
  field "session_solar_pct" session_summary = Some (JNum 72) /\
  field "session_price" session_summary = Some (JNum (123 # 100)) /\
  field "vehicle_title" session_summary = Some (JStr "car1") /\
  field "vehicle_soc" session_summary = Some (JNum 62).
Proof. repeat split; vm_compute; reflexivity. Qed.

(** X8.  The mode label of a summary comes from the fixed table for
    the four known modes and is the mode itself, unchanged, for any
    other string; a loadpoint without a mode is labelled "Off". *)
Theorem transform_loadpoint_mode_label (self : collector)
    (d : list (string * json)) (out : json) :
  transform_loadpoint self (JObj d) = Ok out ->
  (assoc "mode" d = None ->
     field "mode" out = Some (JStr "off") /\
     field "mode_label" out = Some (JStr "Off")) /\
  (forall m, assoc "mode" d = Some (JStr m) ->
     field "mode" out = Some (JStr m) /\
     (m = "off" -> field "mode_label" out = Some (JStr "Off")) /\
     (m = "pv" -> field "mode_label" out = Some (JStr "Solar")) /\
     (m = "minpv" -> field "mode_label" out = Some (JStr "Min+Solar")) /\
     (m = "now" -> field "mode_label" out = Some (JStr "Fast")) /\
     (m <> "off" -> m <> "pv" -> m <> "minpv" -> m <> "now" ->
      field "mode_label" out = Some (JStr m))).
Proof.
  intros H.
  destruct (transform_loadpoint_shape _ _ _ H)
    as (label & pf & en & df & rf & sol & pr & soc & Hlabel & _ & ->).
  match goal with |- context [field "mode" ?doc] =>
    assert (field "mode" doc = Some (dict_get d "mode" (JStr "off")))
      as Emode by reflexivity;
    assert (field "mode_label" doc = Some label) as Elabel by reflexivity;
    rewrite !Emode, !Elabel; clear Emode Elabel H
  end.
  unfold dict_get in *. split.
  - intros Hm. rewrite Hm in *. injection Hlabel as <-. split; reflexivity.
  - intros m Hm. rewrite Hm in *. cbn [mode_label] in Hlabel.
    injection Hlabel as <-. split; [reflexivity |].
    repeat split; try (intros ->; reflexivity).
    intros H1 H2 H3 H4. unfold MODE_LABELS, dict_get. cbn [assoc].
    apply String.eqb_neq in H1, H2, H3, H4. rewrite H1, H2, H3, H4.
    reflexivity.
Qed.

Lemma transform_loadpoint_mode_label_witness :
  field "mode" session_summary = Some (JStr "minpv") /\
  ("minpv" = "off" -> field "mode_label" session_summary = Some (JStr "Off")) /\
  ("minpv" = "pv" -> field "mode_label" session_summary = Some (JStr "Solar")) /\
  ("minpv" = "minpv" ->
   field "mode_label" session_summary = Some (JStr "Min+Solar")) /\
  ("minpv" = "now" -> field "mode_label" session_summary = Some (JStr "Fast")) /\
  ("minpv" <> "off" -> "minpv" <> "pv" -> "minpv" <> "minpv" -> "minpv" <> "now" ->
   field "mode_label" session_summary = Some (JStr "minpv")).
Proof.
  apply (proj2 (transform_loadpoint_mode_label fixture_collector session_lp
                  session_summary eq_refl) "minpv").
  reflexivity.
Defined.

(** ** Raw and formatted fields *)

Lemma format_power_as_num v q u :
  as_num v = Some q -> format_power v u = format_power (JNum q) u.
Proof.
  intros H. unfold format_power, num.
  destruct v; try discriminate; simpl in H; injection H as <-;
    [destruct b |]; reflexivity.
Qed.

Lemma truthy_num_abs q : truthy (JNum (Qabs q)) = truthy (JNum q).
Proof.
  destruct (truthy (JNum q)) eqn:E.
  - apply not_false_iff_true. rewrite truthy_num. intros H.
    apply not_false_iff_true in E. apply E, truthy_num.
    revert H. apply Qabs_case; intros; lra.
  - apply truthy_num. apply truthy_num in E. rewrite E. reflexivity.
Qed.

Lemma format_power_abs q u :
  format_power (JNum (Qabs q)) u = format_power (JNum q) u.
Proof.
  unfold format_power. rewrite truthy_num_abs.
  unfold num, as_num. cbn [mbind result_bind].
  assert (Qabs (Qabs q) = Qabs q) as ->; [| reflexivity].
  destruct q as [n d]. unfold Qabs. simpl. rewrite Z.abs_idemp. reflexivity.
Qed.

(** X9.  Raw and formatted power never disagree: in the energy
    document each of [pv_power_formatted], [grid_power_formatted] and
    [home_power_formatted], in the battery document [power_formatted],
    and in a loadpoint summary [charge_power_formatted], is
    [format_power] of the number in the field beside it, under the
    collector's unit. *)
Theorem formatted_fields_render (self : collector) :
  (forall st out, transform_energy self (JObj st) = Ok out ->
     renders self out "pv_power" "pv_power_formatted" /\
     renders self out "grid_power" "grid_power_formatted" /\
     renders self out "home_power" "home_power_formatted") /\
  (forall st out, transform_battery self (JObj st) = Ok out ->
     renders self out "power" "power_formatted") /\
  (forall d out, transform_loadpoint self (JObj d) = Ok out ->
     renders self out "charge_power" "charge_power_formatted").
Proof.
  split; [| split].
  - intros st out H. unfold transform_energy in H.
    destruct (format_power (py_or (dict_get st "pvPower" (JNum 0)) (JNum 0))
                (power_unit self)) as [pv_fmt |] eqn:Epv; [| discriminate].
    cbn [mbind result_bind] in H.
    unfold py_abs, py_gt0, num in H.
    destruct (as_num (grid_power_raw st)) as [raw |] eqn:Eraw; [| discriminate].
    cbn [mbind result_bind] in H.
    destruct (format_power (grid_power_raw st) (power_unit self))
      as [grid_fmt |] eqn:Egrid; [| discriminate].
    cbn [mbind result_bind] in H.
    destruct (format_power (py_or (dict_get st "homePower" (JNum 0)) (JNum 0))
                (power_unit self)) as [home_fmt |] eqn:Ehome; [| discriminate].
    cbn [mbind result_bind] in H.
    destruct (as_num (py_or (dict_get st "greenShareHome" (JNum 0)) (JNum 0)));
      [| discriminate].
    injection H as <-.
    split; [| split]; eexists _, _;
      (split; [reflexivity |]); (split; [reflexivity |]); try assumption.
    rewrite format_power_abs, <- (format_power_as_num _ _ _ Eraw). exact Egrid.
  - intros st out H. rewrite transform_battery_unfold in H. cbv zeta in H.
    destruct (negb _).
    + bind_inv H. injection H as <-. eexists _, _.
      split; [reflexivity |]. split; [reflexivity | eassumption].
    + bind_inv H. injection H as <-. eexists _, _.
      split; [reflexivity |]. split; [reflexivity | eassumption].
  - intros d out H.
    destruct (transform_loadpoint_shape _ _ _ H)
      as (label & pf & en & df & rf & sol & pr & soc & _ & Hpf & ->).
    eexists _, _. split; [reflexivity |]. split; [reflexivity | exact Hpf].
Qed.

Lemma formatted_fields_render_witness :
  renders fixture_collector session_summary "charge_power" "charge_power_formatted".
Proof.
  apply (proj2 (proj2 (formatted_fields_render fixture_collector)) session_lp).
  reflexivity.
Defined.

(** ** Where the transformer is defined *)









Example transform_battery_bad_unit :
  transform_battery fixture_collector
    (JObj [("battery", JArr [JObj [("soc", JNum 40)]; JNum 7])])
  = Raise AttributeError /\
  transform_battery fixture_collector
    (JObj [("battery", JArr [JObj [("soc", JStr "40")]])])
  = Raise TypeError.
Proof. split; vm_compute; reflexivity. Qed.

(** ** Collector: truncation *)

Lemma slice_to_app {A} (l1 l2 : list A) (m : Z) :
  Z.of_nat (length l1) = m -> slice_to (l1 ++ l2) m = l1.
Proof.
  intros Hm. rewrite slice_to_take by lia.
  rewrite length_app.
  replace (Nat.min (length l1 + length l2) (Z.to_nat m)) with (length l1) by lia.
  apply take_app_length.
Qed.

(** X12.  Loadpoints beyond the configured maximum are never looked
    at: two states that differ only in the loadpoints after the first
    [max_loadpoints], and hold equally many, give the same result, so
    a malformed loadpoint past the maximum cannot fail a collection. *)
Theorem build_payload_ignores_tail (self : collector) (w : world)
    (st st' : list (string * json)) (l1 l2 l2' : list json) :
  Z.of_nat (length l1) = max_loadpoints self ->
  length l2 = length l2' ->
  (forall k, k <> "loadpoints" -> assoc k st = assoc k st') ->
  assoc "loadpoints" st = Some (JArr (l1 ++ l2)) ->
  assoc "loadpoints" st' = Some (JArr (l1 ++ l2')) ->
  build_payload self w (JObj st) = build_payload self w (JObj st').
Proof.
  intros Hm Hlen Hagree Hl Hl'.
  assert (forall k d, k <> "loadpoints" -> dict_get st k d = dict_get st' k d) as Hdg.
  { intros k d Hk. unfold dict_get. rewrite (Hagree k Hk). reflexivity. }
  assert (transform_energy self (JObj st) = transform_energy self (JObj st')) as He.
  { unfold transform_energy, grid_power_raw.
    rewrite !(Hdg "pvPower"), !(Hdg "grid"), !(Hdg "gridPower"),
      !(Hdg "homePower"), !(Hdg "greenShareHome"), !(Hdg "tariffGrid"),
      !(Hdg "tariffFeedIn"), !(Hdg "tariffPriceHome") by discriminate.
    reflexivity. }
  assert (transform_battery self (JObj st) = transform_battery self (JObj st')) as Hb.
  { unfold transform_battery. cbn [py_get].
    rewrite (Hdg "battery") by discriminate. reflexivity. }
  assert (transform_statistics (JObj st) = transform_statistics (JObj st')) as Hs.
  { unfold transform_statistics. cbn [py_get].
    rewrite (Hdg "statistics") by discriminate. reflexivity. }
  unfold build_payload. rewrite He, Hb, Hs. cbn [py_get].
  rewrite (Hdg "siteTitle"), (Hdg "currency") by discriminate.
  unfold dict_get. rewrite Hl, Hl'. cbn [mbind result_bind sliceable].
  rewrite !slice_to_app by exact Hm.
  rewrite !length_app, Hlen. reflexivity.
Qed.

Lemma build_payload_ignores_tail_witness :
  build_payload fixture_collector (fixture_world fixture_state (Raise TypeError))
    (JObj [("loadpoints",
            JArr ([fixture_loadpoint; fixture_loadpoint; fixture_loadpoint;
                   fixture_loadpoint] ++ [JNull]))])
  = build_payload fixture_collector (fixture_world fixture_state (Raise TypeError))
    (JObj [("loadpoints",
            JArr ([fixture_loadpoint; fixture_loadpoint; fixture_loadpoint;
                   fixture_loadpoint] ++ [fixture_loadpoint]))]).
Proof.
  apply (build_payload_ignores_tail _ _ _ _
           [fixture_loadpoint; fixture_loadpoint; fixture_loadpoint;
            fixture_loadpoint] [JNull] [fixture_loadpoint]); try reflexivity.
  intros k Hk. cbn [assoc].
  destruct (String.eqb k "loadpoints") eqn:E; [| reflexivity].
  apply String.eqb_eq in E. contradiction.
Defined.

(** X13.  A negative maximum counts from the end, as a Python slice
    does: with [max_loadpoints = -j] the payload holds the summaries of
    all loadpoints but the last [j] (none when there are at most [j]),
    in order, while [loadpoint_count] is still the full length. *)
Theorem build_payload_negative_maximum (self : collector) (w : world)
    (state payload : json) (lps : list json) :
  max_loadpoints self < 0 ->
  py_get state "loadpoints" (JArr []) = Ok (JArr lps) ->
  build_payload self w state = Ok payload ->
  let k := (length lps - Z.to_nat (- max_loadpoints self))%nat in
  exists snapshot summaries,
    field "merge_variables" payload = Some snapshot /\
    field "loadpoints" snapshot = Some (JArr summaries) /\
    length summaries = k /\
    (forall i lp, (i < k)%nat -> lps !! i = Some lp ->
       exists s, summaries !! i = Some s /\ transform_loadpoint self lp = Ok s) /\
    field "loadpoint_count" snapshot
      = Some (JNum (inject_Z (Z.of_nat (length lps)))).
Proof.
  intros Hm Hlps Hbuild k.
  destruct (build_payload_shape _ _ _ _ Hbuild)
    as (lps' & loadpoints & summaries & site & loc & cur & en & bat & stats
        & Hget & Hsl & Hmap & ->).
  rewrite Hlps in Hget. injection Hget as <-. injection Hsl as <-.
  rewrite slice_to_negative in Hmap by exact Hm. fold k in Hmap.
  apply map_result_Forall2 in Hmap.
  eexists. exists summaries.
  split; [reflexivity |]. split; [reflexivity |].
  split; [| split; [| reflexivity]].
  - rewrite <- (Forall2_length _ _ _ Hmap), length_take. unfold k. lia.
  - intros i lp Hi Hlp.
    apply (Forall2_lookup_l _ _ _ i lp Hmap).
    rewrite lookup_take_lt by exact Hi. exact Hlp.
Qed.

Lemma build_payload_negative_maximum_witness :
  exists snapshot summaries,
    field "merge_variables" negative_payload = Some snapshot /\
    field "loadpoints" snapshot = Some (JArr summaries) /\
    length summaries = 2%nat /\
    (forall i lp, (i < 2)%nat ->
       [fixture_loadpoint; fixture_loadpoint; fixture_loadpoint] !! i = Some lp ->
       exists s, summaries !! i = Some s /\
         transform_loadpoint negative_collector lp = Ok s) /\
    field "loadpoint_count" snapshot = Some (JNum 3).
Proof.
  apply (build_payload_negative_maximum negative_collector
           (fixture_world three_loadpoints (Raise (RequestException "down")))
           three_loadpoints negative_payload
           [fixture_loadpoint; fixture_loadpoint; fixture_loadpoint]).
  - reflexivity.
  - reflexivity.
  - vm_compute. reflexivity.
Defined.

(** ** Collector: the fetch *)

(** X14.  Both answer formats give the same state: when the
    controller answers with a dict that has no [result] key, wrapping
    that dict under [result], as older controllers do, changes nothing
    in what [_api_request] returns. *)
Theorem _api_request_unwraps (self : collector) (w w' : world) (σ : sys)
    (code : Z) (st : list (string * json)) :
  assoc "result" st = None ->
  http_get w (api_url self)
    = Ok {| status_code := code; json_body := Ok (JObj st) |} ->
  http_get w' (api_url self)
    = Ok {| status_code := code; json_body := Ok (JObj [("result", JObj st)]) |} ->
  _api_request self w σ = _api_request self w' σ /\
  (~ (400 <= code < 600) ->
   _api_request self w' σ = (Ok (JObj st), emit (EvGet (api_url self)) σ)).
Proof.
  intros Hres Hw Hw'. unfold _api_request, api_url in *.
  rewrite Hw, Hw'. cbn [mbind result_bind].
  destruct (raise_for_status {| status_code := code; json_body := Ok (JObj st) |})
    eqn:E.
  - assert (raise_for_status
              {| status_code := code; json_body := Ok (JObj [("result", JObj st)]) |}
            = Ok a) as -> by exact E.
    cbn [mbind result_bind json_body py_get]. unfold dict_get. rewrite Hres.
    split; [reflexivity |]. intros _. reflexivity.
  - assert (raise_for_status
              {| status_code := code; json_body := Ok (JObj [("result", JObj st)]) |}
            = Raise e) as E' by exact E.
    rewrite E'. split; [reflexivity |]. intros Hok.
    rewrite raise_for_status_ok in E' by exact Hok. discriminate.
Qed.

Lemma _api_request_unwraps_witness :
  _api_request fixture_collector (fixture_world fixture_state (Raise TypeError)) initial
  = _api_request fixture_collector
      (fixture_world (JObj [("result", fixture_state)]) (Raise TypeError)) initial /\
  (~ (400 <= 200 < 600) ->
   _api_request fixture_collector
      (fixture_world (JObj [("result", fixture_state)]) (Raise TypeError)) initial
   = (Ok fixture_state, emit (EvGet (api_url fixture_collector)) initial)).
Proof.
  apply (_api_request_unwraps fixture_collector
           (fixture_world fixture_state (Raise TypeError))
           (fixture_world (JObj [("result", fixture_state)]) (Raise TypeError))
           initial 200 [("loadpoints", JArr [fixture_loadpoint])]);
    reflexivity.
Defined.

(** X15.  Trailing slashes of the configured URL do not matter: a
    collector built from a URL and one built from the same URL with one
    more slash at the end are the same collector, and the URL fetched
    never has a slash before [/api/state]. *)
Theorem new_collector_strips (u : string) (webhook : option string)
    (tz env_TZ : string) (m : Z) (unit : string) (verbose dry_run : bool) :
  new_collector (u ++ "/") webhook tz env_TZ m unit verbose dry_run
  = new_collector u webhook tz env_TZ m unit verbose dry_run /\
  (forall s,
     api_url (new_collector u webhook tz env_TZ m unit verbose dry_run)
     <> s ++ "//api/state").
Proof.
  split.
  - unfold new_collector. rewrite rstrip_slash_snoc. reflexivity.
  - intros s. unfold api_url, new_collector. cbn [url].
    assert (forall a b : string, a ++ "/api/state" = b ++ "//api/state" ->
              exists c, a = c ++ "/") as Hcut.
    { induction a as [| x a IH]; intros b H.
      - destruct b as [| y b]; [discriminate |].
        exfalso. simpl in H. injection H as _ H.
        assert (String.length ("api/state") = String.length (b ++ "//api/state"))
          as L by (rewrite <- H; reflexivity).
        rewrite length_append in L. simpl in L. lia.
      - destruct b as [| y b].
        + simpl in H. injection H as -> H.
          destruct a as [| z a]; [exists ""; reflexivity |].
          exfalso. simpl in H. injection H as _ H.
          assert (String.length (a ++ "/api/state") = String.length "api/state")
            as L by (rewrite H; reflexivity).
          rewrite length_append in L. simpl in L. lia.
        + simpl in H. injection H as -> H.
          destruct (IH b H) as [c ->]. exists (String y c). reflexivity. }
    intros H. destruct (Hcut _ _ H) as [c Hc].
    pose proof (rstrip_slash_idem u) as Hi. rewrite Hc in Hi at 1.
    rewrite rstrip_slash_snoc in Hi.
    assert (String.length (rstrip_slash c) <= String.length c)%nat as Hle.
    { clear. induction c as [| x c IH]; simpl; [lia |].
      destruct (_ && _); simpl; lia. }
    rewrite Hi, Hc, length_append in Hle. simpl in Hle. lia.
Qed.

(** ** One collection cycle: what it does and does not do *)

Lemma _api_request_io self w σ :
  (_api_request self w σ).2 = emit (EvGet (api_url self)) σ.
Proof. reflexivity. Qed.

Lemma collect_io self w σ :
  (collect self w σ).2 = emit (EvGet (api_url self)) σ.
Proof.
  unfold collect.
  pose proof (_api_request_io self w σ) as H.
  destruct (_api_request self w σ) as [[state | e] σ']; exact H.
Qed.

(** The result of a collection does not depend on the process state. *)
Lemma collect_result self w σ σ' : (collect self w σ).1 = (collect self w σ').1.
Proof.
  unfold collect, _api_request.
  destruct (_ ← http_get w _; _) as [state | e]; reflexivity.
Qed.

Lemma store_payload_io payload σ : io (store_payload payload σ).2 = io σ.
Proof.
  unfold store_payload. destruct (py_get _ _ _); reflexivity.
Qed.

(** X16.  A cycle whose collection fails changes nothing and delivers
    nothing: it reports false, the cache is exactly as before, so the
    snapshot of an earlier cycle stays served, and its only output is
    the one GET. *)
Theorem run_collection_failed (self : collector) (w : world) (σ : sys) (e : exn) :
  (collect self w σ).1 = Raise e ->
  run_collection self w σ = (false, emit (EvGet (api_url self)) σ) /\
  serve_data (run_collection self w σ).2 = serve_data σ /\
  (forall p, do_GET p (run_collection self w σ).2 = do_GET p σ).
Proof.
  intros H.
  assert (run_collection self w σ = (false, emit (EvGet (api_url self)) σ)) as E.
  { unfold run_collection. pose proof (collect_io self w σ) as Hio.
    destruct (collect self w σ) as [[payload | e'] σ1]; [discriminate H |].
    cbn [snd] in Hio. rewrite Hio. reflexivity. }
  rewrite E. split; [reflexivity |]. split; reflexivity.
Qed.

Lemma run_collection_failed_witness :
  run_collection fixture_collector
    (fixture_world (JArr []) (Raise TypeError)) (store_all [payload_a] initial)
  = (false, emit (EvGet (api_url fixture_collector)) (store_all [payload_a] initial)) /\
  serve_data (run_collection fixture_collector
                (fixture_world (JArr []) (Raise TypeError))
                (store_all [payload_a] initial)).2
  = serve_data (store_all [payload_a] initial) /\
  (forall p, do_GET p (run_collection fixture_collector
                         (fixture_world (JArr []) (Raise TypeError))
                         (store_all [payload_a] initial)).2
             = do_GET p (store_all [payload_a] initial)).
Proof.
  apply (run_collection_failed fixture_collector
           (fixture_world (JArr []) (Raise TypeError))
           (store_all [payload_a] initial) AttributeError).
  reflexivity.
Defined.

(** X17.  No retry and no second delivery: every cycle performs
    exactly one GET, of the state URL, followed by at most one delivery
    event, which is a print or a POST to the configured destination;
    and it writes no cache slot other than [evcc]. *)
Theorem run_collection_effects (self : collector) (w : world) (σ : sys) :
  exists deliveries,
    io (run_collection self w σ).2
      = (io σ ++ EvGet (api_url self) :: deliveries)%list /\
    (deliveries = [] \/
     (exists doc, deliveries = [EvPrint doc]) \/
     (exists doc, deliveries = [EvPost (destination self) doc])) /\
    (forall k, k <> "evcc" ->
       serve_data (run_collection self w σ).2 !! k = serve_data σ !! k).
Proof.
  unfold run_collection.
  pose proof (collect_io self w σ) as Hio.
  destruct (collect self w σ) as [[payload | e] σ1]; cbn [snd] in Hio; subst σ1.
  - pose proof (store_payload_io payload (emit (EvGet (api_url self)) σ)) as Hsio.
    assert (forall k, k <> "evcc" ->
              serve_data (store_payload payload (emit (EvGet (api_url self)) σ)).2 !! k
              = serve_data σ !! k) as Hsd.
    { intros k Hk. unfold store_payload.
      destruct (py_get _ _ _); [| reflexivity].
      cbn [snd serve_data emit]. apply lookup_insert_ne. congruence. }
    destruct (store_payload payload _) as [[[] | e] σ2]; cbn [snd] in Hsio, Hsd.
    + pose proof (send_serve_data self w payload σ2) as Hcache.
      destruct (pushes self) eqn:Hp.
      * rewrite (send_post _ _ _ _ Hp) in *. cbn [snd] in Hcache.
        exists [EvPost (destination self) payload].
        split; [| split; [right; right; eauto |]].
        -- destruct (match post_outcome self w payload with
                     | Ok _ => _ | Raise _ => _ end);
             cbn [snd emit io]; rewrite Hsio; cbn [emit io];
             rewrite <- app_assoc; reflexivity.
        -- intros k Hk.
           destruct (match post_outcome self w payload with
                     | Ok _ => _ | Raise _ => _ end);
             cbn [snd]; rewrite Hcache; apply Hsd, Hk.
      * rewrite (send_print _ _ _ _ Hp) in *. cbn [snd] in *.
        exists [EvPrint payload].
        split; [| split; [right; left; eauto |]].
        -- cbn [emit io]. rewrite Hsio. cbn [emit io].
           rewrite <- app_assoc. reflexivity.
        -- intros k Hk. rewrite Hcache. apply Hsd, Hk.
    + exists []. cbn [snd]. split; [rewrite Hsio; reflexivity |].
      split; [left; reflexivity | exact Hsd].
  - exists []. split; [reflexivity |]. split; [left; reflexivity |].
    intros k _. reflexivity.
Qed.

Lemma run_collection_serve_data self w σ :
  serve_data (run_collection self w σ).2 =
  match collected self w with
  | Some snapshot => <["evcc" := snapshot]> (serve_data σ)
  | None => serve_data σ
  end.
Proof.
  unfold collected. rewrite (collect_result self w initial σ).
  unfold run_collection.
  pose proof (collect_io self w σ) as Hio.
  destruct (collect self w σ) as [[payload | e] σ1] eqn:Ec; cbn [fst snd] in *;
    [| subst σ1; reflexivity].
  destruct (collect_snapshot _ _ _ _ _ Ec) as [snapshot Hs].
  rewrite Hs, (store_payload_snapshot _ _ σ1 Hs).
  assert (forall σ2, serve_data
            (match send self w payload σ2 with
             | (Ok success, σ3) => (success, σ3)
             | (Raise _, σ3) => (false, σ3)
             end).2 = serve_data σ2) as Hsend.
  { intros σ2. pose proof (send_serve_data self w payload σ2) as H.
    destruct (send self w payload σ2) as [[b | e] σ3]; exact H. }
  rewrite Hsend. subst σ1. reflexivity.
Qed.

(** X18.  Over any number of loop iterations the cache holds the
    snapshot of the last iteration whose collection succeeded, alone in
    the slot [evcc], whatever happened to the pushes and however many
    later iterations failed; while no collection has succeeded the cache
    stays as it started. *)
Theorem run_cycles_cache (self : collector) (ws : list world) (σ : sys) :
  serve_data (run_cycles self ws σ) =
  match last_collected self ws with
  | Some snapshot => <["evcc" := snapshot]> (serve_data σ)
  | None => serve_data σ
  end.
Proof.
  unfold last_collected. revert σ.
  induction ws as [| w ws IH]; intros σ; [reflexivity |].
  cbn [run_cycles]. rewrite IH, run_collection_serve_data.
  assert (omap (collected self) (w :: ws)
          = match collected self w with
            | Some y => y :: omap (collected self) ws
            | None => omap (collected self) ws
            end) as -> by reflexivity.
  destruct (collected self w) as [s |]; [| reflexivity].
  rewrite last_cons.
  destruct (last (omap (collected self) ws)) as [s' |]; [| reflexivity].
  apply insert_insert_eq.
Qed.

Example run_cycles_keeps_last_good :
  serve_data
    (run_cycles pushing_collector
       [fixture_world fixture_state (Raise (RequestException "down"));
        fixture_world (JArr []) (Ok {| status_code := 200; json_body := Ok JNull |})]
       initial)
  = {[ "evcc" := default JNull (snapshot_of fixture_payload) ]}.
Proof. vm_compute. reflexivity. Qed.

(** The timestamp step of [collect]. *)
Lemma build_payload_zone self w state e :
  timezone self <> "" ->
  zone_now w (timezone self) = Raise e ->
  build_payload self w state = Raise e.
Proof.
  intros Htz Hz. unfold build_payload.
  apply String.eqb_neq in Htz. rewrite Htz, Hz. reflexivity.
Qed.

(** X19.  A timezone the zone database does not know fails every
    collection, although the label has a fallback for it: when
    [ZoneInfo] raises, a cycle whose fetch succeeded reports false,
    stores nothing and delivers nothing. *)
Theorem run_collection_bad_timezone (self : collector) (w : world) (σ : sys)
    (state : json) (e : exn) :
  timezone self <> "" ->
  zone_now w (timezone self) = Raise e ->
  (_api_request self w σ).1 = Ok state ->
  run_collection self w σ = (false, emit (EvGet (api_url self)) σ) /\
  _get_timezone_abbrev self w <> "".
Proof.
  intros Htz Hz Hreq. split.
  - unfold run_collection, collect.
    pose proof (_api_request_io self w σ) as Hio.
    destruct (_api_request self w σ) as [[state' | e'] σ1]; cbn [fst snd] in *;
      [| discriminate Hreq].
    rewrite (build_payload_zone _ _ _ _ Htz Hz), Hio. reflexivity.
  - unfold _get_timezone_abbrev.
    apply String.eqb_neq in Htz. rewrite Htz.
    apply String.eqb_neq in Htz.
    destruct (zone_abbrev w (timezone self)) as [abbrev | e'']; [| exact Htz].
    destruct (String.eqb abbrev "") eqn:Ea; [exact Htz |].
    apply String.eqb_neq, Ea.
Qed.

Lemma run_collection_bad_timezone_witness :
  run_collection
    (new_collector "http://evcc:7070" None "Mars/Olympus" "" 4 "auto" false false)
    (fixture_world fixture_state (Raise TypeError)) initial
  = (false,
     emit (EvGet (api_url
       (new_collector "http://evcc:7070" None "Mars/Olympus" "" 4 "auto" false false)))
       initial) /\
  _get_timezone_abbrev
    (new_collector "http://evcc:7070" None "Mars/Olympus" "" 4 "auto" false false)
    (fixture_world fixture_state (Raise TypeError)) <> "".
Proof.
  apply (run_collection_bad_timezone
           (new_collector "http://evcc:7070" None "Mars/Olympus" "" 4 "auto" false false)
           (fixture_world fixture_state (Raise TypeError)) initial fixture_state
           ZoneInfoNotFoundError); [discriminate | reflexivity | reflexivity].
Defined.

(** X20.  The timezone label is never empty: it is "UTC" when no
    timezone is configured, whatever the zone database says, and
    otherwise the abbreviation the zone gives or, when that is empty or
    the zone is unknown, the configured identifier itself. *)
Theorem _get_timezone_abbrev_label (self : collector) (w : world) :
  _get_timezone_abbrev self w <> "" /\
  (timezone self = "" -> _get_timezone_abbrev self w = "UTC") /\
  (timezone self <> "" ->
   (forall abbrev, zone_abbrev w (timezone self) = Ok abbrev -> abbrev <> "" ->
      _get_timezone_abbrev self w = abbrev) /\
   (zone_abbrev w (timezone self) = Ok "" ->
      _get_timezone_abbrev self w = timezone self) /\
   (forall e, zone_abbrev w (timezone self) = Raise e ->
      _get_timezone_abbrev self w = timezone self)).
Proof.
  unfold _get_timezone_abbrev.
  destruct (String.eqb (timezone self) "") eqn:Etz.
  - apply String.eqb_eq in Etz.
    split; [discriminate |]. split; [reflexivity |]. intros H. contradiction.
  - apply String.eqb_neq in Etz. split; [| split; [intros H; contradiction |]].
    + destruct (zone_abbrev w (timezone self)) as [abbrev | e]; [| exact Etz].
      destruct (String.eqb abbrev "") eqn:Ea; [exact Etz |].
      apply String.eqb_neq, Ea.
    + intros _. split; [| split].
      * intros abbrev -> Ha. apply String.eqb_neq in Ha. rewrite Ha. reflexivity.
      * intros ->. reflexivity.
      * intros e ->. reflexivity.
Qed.

(** ** Serving *)

Lemma rstrip_slash_not_slash s : rstrip_slash s <> "/".
Proof.
  destruct s as [| c s]; [discriminate |].
  cbn [rstrip_slash].
  destruct (String.eqb (rstrip_slash s) "") eqn:Er, (Ascii.eqb c "/"%char) eqn:Ec;
    cbn [andb]; try discriminate.
  - intros [= -> _]. discriminate Ec.
  - intros [= _ H]. rewrite H in Er. discriminate Er.
  - intros [= _ H]. rewrite H in Er. discriminate Er.
Qed.

(** X21.  The handler reads a path up to its trailing slashes: a
    request path and the same path with one more slash at the end get
    the same reply.  Any path that is then neither the root nor
    [/data/evcc] gets a bare 404, with no header and no body, whatever
    the cache holds. *)
Theorem do_GET_paths (p : string) (σ : sys) :
  do_GET (p ++ "/") σ = do_GET p σ /\
  (rstrip_slash p <> "" -> rstrip_slash p <> "/data/evcc" ->
   do_GET p σ = {| status := 404; headers := []; body := None |}).
Proof.
  split.
  - unfold do_GET. rewrite rstrip_slash_snoc. reflexivity.
  - intros Hroot Hdata. unfold do_GET.
    pose proof (rstrip_slash_not_slash p) as Hslash.
    apply String.eqb_neq in Hroot, Hdata, Hslash.
    rewrite Hroot, Hdata, Hslash. reflexivity.
Qed.

Lemma do_GET_paths_witness :
  do_GET "/data/other" initial = {| status := 404; headers := []; body := None |}.
Proof.
  apply (proj2 (do_GET_paths "/data/other" initial)); vm_compute; discriminate.
Defined.



(** ** Reading a status back *)

(** X23.  A status tells the flags it came from: "Charging" means the
    loadpoint charges; "Waiting for solar" and "Finished" both mean
    connected, enabled and not charging, the first in a solar mode and
    the second not; "Connected" means connected, not enabled and not
    charging; "Disconnected" means neither charging nor connected. *)
Theorem derive_status_reads_back (lp : list (string * json)) :
  (derive_status lp = "Charging" <-> flag lp "charging" = true) /\
  (derive_status lp = "Waiting for solar" <->
   flag lp "charging" = false /\ flag lp "connected" = true /\
   flag lp "enabled" = true /\ solar_mode lp) /\
  (derive_status lp = "Finished" <->
   flag lp "charging" = false /\ flag lp "connected" = true /\
   flag lp "enabled" = true /\ ~ solar_mode lp) /\
  (derive_status lp = "Connected" <->
   flag lp "charging" = false /\ flag lp "connected" = true /\
   flag lp "enabled" = false) /\
  (derive_status lp = "Disconnected" <->
   flag lp "charging" = false /\ flag lp "connected" = false).
Proof.
  pose proof (solar_mode_eqb lp) as Hm. simpl in Hm.
  unfold derive_status, flag.
  destruct (truthy (dict_get lp "charging" (JBool false))),
           (truthy (dict_get lp "connected" (JBool false))),
           (truthy (dict_get lp "enabled" (JBool false))),
           (py_eq_str (dict_get lp "mode" (JStr "")) "pv"
            || py_eq_str (dict_get lp "mode" (JStr "")) "minpv");
    simpl; repeat split; try discriminate; try reflexivity;
    try (intros (? & ? & ? & ?); discriminate);
    try (intros (? & ? & ?); discriminate);
    try (intros (? & ?); discriminate);
    try (apply Hm; reflexivity);
    try (intros Hs; apply Hm in Hs; discriminate Hs);
    try (intros (_ & _ & _ & Hs); first [apply Hm in Hs; discriminate Hs
                                        | destruct Hs; apply Hm; reflexivity]).
Qed.

(** ** Energy: where it is defined *)


(** ** The outcome of a cycle *)

(** X25.  A cycle reports success exactly when its collection
    succeeded and, if it pushes, the POST was delivered with a status
    that is not an error; a dry run or a collector without destination
    succeeds as soon as the collection does. *)
Theorem run_collection_success (self : collector) (w : world) (σ : sys) :
  (run_collection self w σ).1 = true <->
  exists payload,
    (collect self w σ).1 = Ok payload /\
    (pushes self = false \/ post_outcome self w payload = Ok ()).
Proof.
  unfold run_collection.
  destruct (collect self w σ) as [[payload | e] σ1] eqn:Ec; cbn [fst].
  - destruct (collect_snapshot _ _ _ _ _ Ec) as [snapshot Hs].
    rewrite (store_payload_snapshot _ _ σ1 Hs).
    destruct (pushes self) eqn:Hp.
    + rewrite (send_post _ _ _ _ Hp).
      destruct (post_outcome self w payload) as [[] | []] eqn:Ep; cbn [fst];
        (split; [intros H; try discriminate H; exists payload; auto
                | intros (p & [= <-] & [H | H]); try congruence; reflexivity]).
    + rewrite (send_print _ _ _ _ Hp). cbn [fst].
      split; [intros _; exists payload; auto | reflexivity].
  - split; [discriminate |]. intros (p & [=] & _).
Qed.

(** ** The size of the list *)

Lemma length_slice_to {A} (l : list A) (m : Z) :
  (length (slice_to l m) <= length l)%nat /\
  (0 <= m -> Z.of_nat (length (slice_to l m)) <= m).
Proof.
  unfold slice_to. rewrite length_take.
  destruct (m <? 0)%Z eqn:E; split; lia.
Qed.

(** X26.  Whatever the configured maximum, negative ones included, a
    payload never lists more summaries than [loadpoint_count], and never
    more than a maximum that is not negative. *)
Theorem build_payload_count (self : collector) (w : world) (state payload : json) :
  build_payload self w state = Ok payload ->
  exists snapshot summaries n,
    field "merge_variables" payload = Some snapshot /\
    field "loadpoints" snapshot = Some (JArr summaries) /\
    field "loadpoint_count" snapshot = Some (JNum (inject_Z (Z.of_nat n))) /\
    (length summaries <= n)%nat /\
    (0 <= max_loadpoints self ->
     Z.of_nat (length summaries) <= max_loadpoints self).
Proof.
  intros Hbuild.
  destruct (build_payload_shape _ _ _ _ Hbuild)
    as (lps' & loadpoints & summaries & site & loc & cur & en & bat & stats
        & Hget & Hsl & Hmap & ->).
  apply map_result_Forall2, Forall2_length in Hmap.
  destruct (length_slice_to loadpoints (max_loadpoints self)) as [H1 H2].
  eexists _, summaries, (length loadpoints).
  split; [reflexivity |]. split; [reflexivity |]. split; [reflexivity |].
  rewrite <- Hmap. split; assumption.
Qed.

Lemma build_payload_count_witness :
  exists snapshot summaries n,
    field "merge_variables" negative_payload = Some snapshot /\
    field "loadpoints" snapshot = Some (JArr summaries) /\
    field "loadpoint_count" snapshot = Some (JNum (inject_Z (Z.of_nat n))) /\
    (length summaries <= n)%nat /\
    (0 <= max_loadpoints negative_collector ->
     Z.of_nat (length summaries) <= max_loadpoints negative_collector).
Proof.
  apply (build_payload_count negative_collector
           (fixture_world three_loadpoints (Raise (RequestException "down")))
           three_loadpoints negative_payload).
  vm_compute. reflexivity.
Defined.
